(** * CalDAV query matching (caldav/match.go of go-webdav)

    A shallow embedding of the calendar-query evaluator: [Filter] and [Match]
    and the matchers below them, together with the properties of the
    evaluator that its specification states.

    Go values are modelled as follows.
    - A pair of results [(bool, error)] is a Rocq pair [bool * option error];
      [None] is the nil error.
    - A pointer that may be nil (to a CalendarQuery, an ical.Calendar, a
      TextMatch, ...) is an [option].
    - A slice that is only ranged over is a [list]; the slices [Filter]
      receives and returns are [option (list _)], where [None] is the nil
      slice and [Some []] the empty slice made by [make].
    - A Go map is a [gmap]. *)

From Stdlib Require Import ZArith Ascii.
From stdpp Require Import base strings gmap list.

Set Warnings "-register-all".

Local Open Scope string_scope.
Local Open Scope list_scope.
Local Open Scope Z_scope.

(** ** Package time *)

(** A pointer to a [time.Location], identified by the location's name. *)
Definition Location : Type := string.

Definition UTC : Location := "UTC".

(** A [time.Time]: an instant on the time line (in nanoseconds, counted from
    the instant of the zero value) and a location pointer. *)
Record Time : Type := mkTime {
  Time_instant : Z;
  Time_loc : option Location
}.

#[global] Instance Time_eq_dec : EqDecision Time.
Proof. solve_decision. Defined.

(** [var zeroDate time.Time] *)
Definition zeroDate : Time := mkTime 0 None.

(** [t.Location()]: a nil location pointer stands for UTC. *)
Definition Time_Location (t : Time) : Location :=
  match Time_loc t with
  | None => UTC
  | Some l => l
  end.

(** [t.After(u)] and [t.Before(u)] compare instants, strictly. *)
Definition Time_After (t u : Time) : bool := Time_instant u <? Time_instant t.
Definition Time_Before (t u : Time) : bool := Time_instant t <? Time_instant u.

(** ** Go errors *)

Definition error : Type := string.

(** ** Package ical: the calendar data model *)

(** [ical.Prop] *)
Record ical_Prop : Type := mkProp {
  Prop_Name : string;
  Prop_Params : gmap string (list string);
  Prop_Value : string
}.

(** [ical.Component]; [Props] is a [map[string][]Prop]. *)
Inductive Component : Type := mkComponent {
  Component_Name : string;
  Component_Props : gmap string (list ical_Prop);
  Component_Children : list Component
}.

(** [ical.Calendar] embeds a pointer to a [Component]. *)
Record Calendar : Type := mkCalendar {
  Calendar_Component : option Component
}.

(** [ical.CompEvent] *)
Definition CompEvent : string := "VEVENT".

(** The functions of go-ical and of the Go library that the matcher calls and
    whose code is outside this package. *)
Class ICal : Type := {
  (** [strings.ToUpper], which [Props.Get] and [Params.Get] apply to the
      name they look up *)
  ToUpper : string -> string;
  (** [prop.DateTime(loc)] of an [ical.Prop] *)
  Prop_DateTime : ical_Prop -> Location -> Time * option error;
  (** [event.DateTimeStart(loc)] of an [ical.Event], a wrapped component *)
  Event_DateTimeStart : Component -> Location -> Time * option error;
  (** [event.DateTimeEnd(loc)] *)
  Event_DateTimeEnd : Component -> Location -> Time * option error
}.

(** ** Package caldav: the filter tree and the calendar objects *)

Record TextMatch : Type := mkTextMatch {
  TextMatch_Text : string;
  TextMatch_NegateCondition : bool
}.

Record ParamFilter : Type := mkParamFilter {
  ParamFilter_Name : string;
  ParamFilter_IsNotDefined : bool;
  ParamFilter_TextMatch : option TextMatch
}.

Record PropFilter : Type := mkPropFilter {
  PropFilter_Name : string;
  PropFilter_IsNotDefined : bool;
  PropFilter_Start : Time;
  PropFilter_End : Time;
  PropFilter_TextMatch : option TextMatch;
  PropFilter_ParamFilter : list ParamFilter
}.

Inductive CompFilter : Type := mkCompFilter {
  CompFilter_Name : string;
  CompFilter_IsNotDefined : bool;
  CompFilter_Start : Time;
  CompFilter_End : Time;
  CompFilter_Props : list PropFilter;
  CompFilter_Comps : list CompFilter
}.

Inductive CalendarCompRequest : Type := mkCalendarCompRequest {
  CompRequest_Name : string;
  CompRequest_AllProps : bool;
  CompRequest_Props : list string;
  CompRequest_AllComps : bool;
  CompRequest_Comps : list CalendarCompRequest
}.

Record CalendarQuery : Type := mkCalendarQuery {
  CalendarQuery_CompRequest : CalendarCompRequest;
  CalendarQuery_CompFilter : CompFilter
}.

Record CalendarObject : Type := mkCalendarObject {
  CalendarObject_Path : string;
  CalendarObject_ModTime : Time;
  CalendarObject_ContentLength : Z;
  CalendarObject_ETag : string;
  CalendarObject_Data : option Calendar
}.

(** ** Control flow of the Go loops *)

(** A statement inside a function body either returns from the function
    ([Some r]) or falls through to the next statement ([None]). *)
Definition orelse {R : Type} (stmt : option R) (rest : R) : R :=
  match stmt with
  | Some r => r
  | None => rest
  end.

Notation "stmt ';;;' rest" := (orelse stmt rest)
  (at level 90, right associativity, only parsing).

(** [for _, x := range xs { body }], where the body may return from the
    enclosing function. *)
Definition range {A R : Type} (body : A -> option R) : list A -> option R :=
  fix loop (xs : list A) : option R :=
    match xs with
    | [] => None
    | x :: xs' =>
      match body x with
      | Some r => Some r
      | None => loop xs'
      end
    end.

(** The statement that follows every call of a matcher:
    [if err != nil { return false, err }; if !match { return false, nil }]. *)
Definition check (r : bool * option error) : option (bool * option error) :=
  match r with
  | (_, Some err) => Some (false, Some err)
  | (false, None) => Some (false, None)
  | (true, None) => None
  end.

(** ** The matchers *)

Section Matchers.
Context `{ICal}.

(** [props.Get(name)]: the first property stored under the name, or nil. *)
Definition Props_Get (props : gmap string (list ical_Prop)) (name : string)
  : option ical_Prop :=
  match props !! ToUpper name with
  | Some (p :: _) => Some p
  | _ => None
  end.

(** [params.Get(name)]: the first value stored under the name, or the empty
    string. *)
Definition Params_Get (params : gmap string (list string)) (name : string)
  : string :=
  match params !! ToUpper name with
  | Some (v :: _) => v
  | _ => ""
  end.

Definition matchTextMatch (txt : TextMatch) (value : string) : bool :=
  let match_ := bool_decide (value = TextMatch_Text txt) in
  if TextMatch_NegateCondition txt then negb match_ else match_.

Definition matchParamFilter (filter : ParamFilter) (field : ical_Prop) : bool :=
  let value := Params_Get (Prop_Params field) (ParamFilter_Name filter) in
  if bool_decide (value = "") then ParamFilter_IsNotDefined filter
  else if ParamFilter_IsNotDefined filter then false
  else
    match ParamFilter_TextMatch filter with
    | Some txt => matchTextMatch txt value
    | None => true
    end.

Definition matchPropTimeRange (start end_ : Time) (field : ical_Prop)
  : bool * option error :=
  match Prop_DateTime field (Time_Location start) with
  | (_, Some err) => (false, Some err)
  | (ptime, None) =>
    if Time_After ptime start && Time_Before ptime end_ then (true, None)
    else (false, None)
  end.

Definition matchCompTimeRange (start end_ : Time) (comp : Component)
  : bool * option error :=
  if bool_decide (Component_Name comp ≠ CompEvent) then (false, None)
  else
    match Event_DateTimeStart comp (Time_Location start) with
    | (_, Some err) => (false, Some err)
    | (eventStart, None) =>
      match Event_DateTimeEnd comp (Time_Location end_) with
      | (_, Some err) => (false, Some err)
      | (eventEnd, None) =>
        (* Event starts in time range *)
        if Time_After eventStart start && Time_Before eventStart end_
        then (true, None)
        (* Event ends in time range *)
        else if Time_After eventEnd start && Time_Before eventEnd end_
        then (true, None)
        (* Event covers entire time range plus some *)
        else if Time_Before eventStart start && Time_After eventEnd end_
        then (true, None)
        else (false, None)
      end
    end.

(** The loop over [filter.ParamFilter] that two branches of
    [matchPropFilter] run. *)
Definition range_ParamFilter (filter : PropFilter) (field : ical_Prop)
  : option (bool * option error) :=
  range (fun paramFilter =>
           if negb (matchParamFilter paramFilter field)
           then Some (false, None) else None)
        (PropFilter_ParamFilter filter).

Definition matchPropFilter (filter : PropFilter) (comp : Component)
  : bool * option error :=
  match Props_Get (Component_Props comp) (PropFilter_Name filter) with
  | None => (PropFilter_IsNotDefined filter, None)
  | Some field =>
    if bool_decide (PropFilter_Start filter ≠ zeroDate) then
      check (matchPropTimeRange (PropFilter_Start filter)
                                (PropFilter_End filter) field) ;;;
      range_ParamFilter filter field ;;;
      (* empty prop-filter, property exists *)
      (true, None)
    else
      match PropFilter_TextMatch filter with
      | Some txt =>
        (if negb (matchTextMatch txt (Prop_Value field))
         then Some (false, None) else None) ;;;
        range_ParamFilter filter field ;;;
        (true, None)
      | None =>
        (* empty prop-filter, property exists *)
        (true, None)
      end
  end.

(** The loop of [matchCompFilter] over [comp.Children]: it appends the
    matching children to [matches], and returns from the function at the
    first error. *)
Fixpoint matchCompFilter_range
    (matchChild : Component -> bool * option error)
    (children matches : list Component)
  : list Component + bool * option error :=
  match children with
  | [] => inl matches
  | child :: children' =>
    match matchChild child with
    | (_, Some err) => inr (false, Some err)
    | (true, None) =>
      matchCompFilter_range matchChild children' (matches ++ [child])
    | (false, None) => matchCompFilter_range matchChild children' matches
    end
  end.

(** The body of [matchCompFilter], with its call of [matchCompFilterChild]
    on the same filter taken as [matchChild]. *)
Definition matchCompFilter_body
    (matchChild : Component -> bool * option error)
    (filter : CompFilter) (comp : Component) : bool * option error :=
  match matchCompFilter_range matchChild (Component_Children comp) [] with
  | inr r => r
  | inl matches =>
    if bool_decide (length matches = 0%nat)
    then (CompFilter_IsNotDefined filter, None)
    else (true, None)
  end.

(** [matchCompFilterChild] and [matchCompFilter] call each other; the
    recursion descends the filter tree. *)
Fixpoint matchCompFilterChild (filter : CompFilter) (comp : Component)
    {struct filter} : bool * option error :=
  if bool_decide (Component_Name comp ≠ CompFilter_Name filter)
  then (false, None)
  else
    (if bool_decide (CompFilter_Start filter ≠ zeroDate)
     then check (matchCompTimeRange (CompFilter_Start filter)
                                    (CompFilter_End filter) comp)
     else None) ;;;
    range (fun compFilter =>
             check (matchCompFilter_body (matchCompFilterChild compFilter)
                                         compFilter comp))
          (CompFilter_Comps filter) ;;;
    range (fun propFilter => check (matchPropFilter propFilter comp))
          (CompFilter_Props filter) ;;;
    (true, None).

Definition matchCompFilter (filter : CompFilter) (comp : Component)
  : bool * option error :=
  matchCompFilter_body (matchCompFilterChild filter) filter comp.

(** [Match] reports whether the provided CalendarObject matches the query. *)
Definition Match (query : CompFilter) (co : CalendarObject)
  : bool * option error :=
  match CalendarObject_Data co with
  | None => (false, None)
  | Some data =>
    match Calendar_Component data with
    | None => (false, None)
    | Some comp =>
      if bool_decide (CompFilter_Name query ≠ Component_Name comp)
      then (CompFilter_IsNotDefined query, None)
      else
        range (fun compFilter => check (matchCompFilter compFilter comp))
              (CompFilter_Comps query) ;;;
        range (fun propFilter => check (matchPropFilter propFilter comp))
              (CompFilter_Props query) ;;;
        (true, None)
    end
  end.

(** The loop of [Filter] over [cos], with [out] the objects kept so far. *)
Fixpoint Filter_range (query : CalendarQuery) (cos out : list CalendarObject)
  : option (list CalendarObject) * option error :=
  match cos with
  | [] => (Some out, None)
  | co :: cos' =>
    match Match (CalendarQuery_CompFilter query) co with
    | (_, Some err) => (None, Some err)
    | (false, None) => Filter_range query cos' out
    | (true, None) =>
      (* TODO properties are not currently filtered even if requested *)
      Filter_range query cos' (out ++ [co])
    end
  end.

(** Ranging over a nil slice is ranging over no element. *)
Definition slice_elements {A : Type} (s : option (list A)) : list A :=
  match s with
  | None => []
  | Some l => l
  end.

(** [Filter] returns the filtered list of calendar objects matching the
    provided query. A nil query will return the full list of calendar
    objects. *)
Definition Filter (query : option CalendarQuery)
    (cos : option (list CalendarObject))
  : option (list CalendarObject) * option error :=
  match query with
  | None => (cos, None)
  | Some query => Filter_range query (slice_elements cos) []
  end.

End Matchers.

(** ** A small calendar library to run the matchers on

    An instance of [ICal] in which names are upper-cased letter by letter
    (ASCII) and a date-time value is a decimal numeral, the instant itself;
    any other value is a data-format error. *)

Definition upper_ascii (c : Ascii.ascii) : Ascii.ascii :=
  let n := Ascii.nat_of_ascii c in
  if (97 <=? n)%nat && (n <=? 122)%nat then Ascii.ascii_of_nat (n - 32) else c.

Fixpoint upper_string (s : string) : string :=
  match s with
  | EmptyString => EmptyString
  | String c s' => String (upper_ascii c) (upper_string s')
  end.

Definition digit_of_ascii (c : Ascii.ascii) : option Z :=
  let n := Ascii.nat_of_ascii c in
  if (48 <=? n)%nat && (n <=? 57)%nat then Some (Z.of_nat (n - 48)) else None.

Fixpoint parse_decimal (s : string) (acc : Z) : option Z :=
  match s with
  | EmptyString => Some acc
  | String c s' =>
    match digit_of_ascii c with
    | Some d => parse_decimal s' (10 * acc + d)
    | None => None
    end
  end.

Definition decimal_DateTime (p : ical_Prop) (loc : Location)
  : Time * option error :=
  match Prop_Value p with
  | EmptyString => (zeroDate, Some "ical: empty date-time")
  | value =>
    match parse_decimal value 0 with
    | Some t => (mkTime t (Some loc), None)
    | None => (zeroDate, Some "ical: malformed date-time")
    end
  end.

(** The date-time of the first property of the given name; the zero time
    without an error when the component has no such property. *)
Definition decimal_Props_DateTime (name : string) (comp : Component)
    (loc : Location) : Time * option error :=
  match Component_Props comp !! name with
  | Some (p :: _) => decimal_DateTime p loc
  | _ => (zeroDate, None)
  end.

Definition decimal_ICal : ICal := {|
  ToUpper := upper_string;
  Prop_DateTime := decimal_DateTime;
  Event_DateTimeStart := decimal_Props_DateTime "DTSTART";
  Event_DateTimeEnd := decimal_Props_DateTime "DTEND"
|}.

(** Builders for calendars and filters. *)

Definition prop (name value : string) : ical_Prop := mkProp name ∅ value.

Definition props_of (l : list ical_Prop) : gmap string (list ical_Prop) :=
  foldr (fun p m => <[Prop_Name p := p :: default [] (m !! Prop_Name p)]> m) ∅ l.

Definition component (name : string) (ps : list ical_Prop)
    (children : list Component) : Component :=
  mkComponent name (props_of ps) children.

Definition object_of (root : Component) : CalendarObject :=
  mkCalendarObject "/cal/obj.ics" zeroDate 0 "" (Some (mkCalendar (Some root))).

Definition utc (t : Z) : Time := mkTime t (Some UTC).

(** Sample calendars: an event with start 15 and end 25, the same event
    with an alarm, and an event whose start is not a date-time. *)

Definition alarm : Component :=
  component "VALARM" [prop "ACTION" "DISPLAY"] [].

Definition event_plain : Component :=
  component "VEVENT"
    [prop "UID" "abc123"; prop "DTSTART" "15"; prop "DTEND" "25"] [].

Definition event_alarm : Component :=
  component "VEVENT"
    [prop "UID" "xyz999"; prop "DTSTART" "15"; prop "DTEND" "25"] [alarm].

Definition event_malformed : Component :=
  component "VEVENT" [prop "UID" "bad000"; prop "DTSTART" "tomorrow"] [].

Definition calendar_plain : Component :=
  component "VCALENDAR" [prop "VERSION" "2.0"] [event_plain].

Definition calendar_mixed : Component :=
  component "VCALENDAR" [prop "VERSION" "2.0"] [event_plain; event_malformed].

(** A meeting whose attendee has the parameter ROLE=CHAIR. *)
Definition attendee : ical_Prop :=
  mkProp "ATTENDEE" {["ROLE" := ["CHAIR"]]} "mailto:chair@example.com".

Definition event_meeting : Component :=
  component "VEVENT" [prop "UID" "meet42"; attendee] [].

Definition object_no_data : CalendarObject :=
  mkCalendarObject "/cal/empty.ics" zeroDate 0 "" None.

(** Sample filters. *)

Definition uid_not_defined : PropFilter :=
  mkPropFilter "UID" true zeroDate zeroDate None [].

Definition valarm_not_defined : CompFilter :=
  mkCompFilter "VALARM" true zeroDate zeroDate [] [].

Definition vevent_without_valarm : CompFilter :=
  mkCompFilter "VEVENT" false zeroDate zeroDate [] [valarm_not_defined].

Definition vevent_in_range : CompFilter :=
  mkCompFilter "VEVENT" false (utc 10) (utc 20) [] [].

Definition calendar_in_range : CompFilter :=
  mkCompFilter "VCALENDAR" false zeroDate zeroDate [] [vevent_in_range].

Definition query_in_range : CalendarQuery :=
  mkCalendarQuery (mkCalendarCompRequest "VCALENDAR" true [] true [])
                  calendar_in_range.

Definition role_defined : ParamFilter := mkParamFilter "ROLE" false None.

Definition role_chair : ParamFilter :=
  mkParamFilter "ROLE" false (Some (mkTextMatch "CHAIR" false)).

(** UID exists, with a parameter filter that no UID property satisfies. *)
Definition uid_with_role : PropFilter :=
  mkPropFilter "UID" false zeroDate zeroDate None [role_defined].

Definition attendee_chair : PropFilter :=
  mkPropFilter "ATTENDEE" false zeroDate zeroDate
               (Some (mkTextMatch "mailto:chair@example.com" false))
               [role_chair].

Definition vtodo_not_defined : CompFilter :=
  mkCompFilter "VTODO" true zeroDate zeroDate [] [].

(** The same filter with another time range. *)
Definition with_range (filter : CompFilter) (start end_ : Time) : CompFilter :=
  mkCompFilter (CompFilter_Name filter) (CompFilter_IsNotDefined filter)
               start end_
               (CompFilter_Props filter) (CompFilter_Comps filter).

(** A property filter without a time range, and a component filter in
    which no node, nested filters included, has a time range: the test
    [Start != zeroDate] fails everywhere. *)
Definition PropFilter_untimed (filter : PropFilter) : bool :=
  bool_decide (PropFilter_Start filter = zeroDate).

Fixpoint CompFilter_untimed (filter : CompFilter) : bool :=
  bool_decide (CompFilter_Start filter = zeroDate)
  && forallb PropFilter_untimed (CompFilter_Props filter)
  && forallb CompFilter_untimed (CompFilter_Comps filter).

(** More sample data: a to-do, filters with a time range on a to-do and on
    a property, and a query without any time range. *)

Definition todo_plain : Component :=
  component "VTODO" [prop "UID" "todo77"; prop "DTSTART" "15"] [].

Definition vtodo_in_range : CompFilter :=
  mkCompFilter "VTODO" false (utc 10) (utc 20) [] [].

Definition uid_is_abc : PropFilter :=
  mkPropFilter "UID" false zeroDate zeroDate
               (Some (mkTextMatch "abc123" false)) [].

Definition uid_is_not_abc : PropFilter :=
  mkPropFilter "UID" false zeroDate zeroDate
               (Some (mkTextMatch "abc123" true)) [].

Definition dtstart_in_range : PropFilter :=
  mkPropFilter "DTSTART" false (utc 10) (utc 20) None [].

Definition vevent_uid_abc : CompFilter :=
  mkCompFilter "VEVENT" false zeroDate zeroDate [uid_is_abc] [].

Definition calendar_uid_abc : CompFilter :=
  mkCompFilter "VCALENDAR" false zeroDate zeroDate [] [vevent_uid_abc].

Definition query_uid_abc : CalendarQuery :=
  mkCalendarQuery (mkCalendarCompRequest "VCALENDAR" true [] true [])
                  calendar_uid_abc.

Definition calendar_alarm : Component :=
  component "VCALENDAR" [prop "VERSION" "2.0"] [event_alarm].

Definition calendar_todo : Component :=
  component "VCALENDAR" [prop "VERSION" "2.0"] [todo_plain].

Definition role_not_defined : ParamFilter :=
  mkParamFilter "ROLE" true (Some (mkTextMatch "CHAIR" false)).

Definition vtodo_exists : CompFilter :=
  mkCompFilter "VTODO" false zeroDate zeroDate [] [].

(** A root filter whose second component filter fails before the third,
    which has a time range, is reached. *)
Definition calendar_three_comps : CompFilter :=
  mkCompFilter "VCALENDAR" false zeroDate zeroDate []
               [vevent_uid_abc; vtodo_exists; vevent_in_range].

Definition version_exists : PropFilter :=
  mkPropFilter "VERSION" false zeroDate zeroDate None [].

Definition prodid_exists : PropFilter :=
  mkPropFilter "PRODID" false zeroDate zeroDate None [].

Definition calendar_two_props : CompFilter :=
  mkCompFilter "VCALENDAR" false zeroDate zeroDate
               [version_exists; prodid_exists; dtstart_in_range]
               [vevent_uid_abc].

(** ** Properties of the loops *)

Section Loops.
Context {A R : Type}.

Lemma range_nil (body : A -> option R) : range body [] = None.
Proof. reflexivity. Qed.

Lemma range_cons (body : A -> option R) (x : A) (xs : list A) :
  range body (x :: xs) =
  match body x with Some r => Some r | None => range body xs end.
Proof. reflexivity. Qed.

(** A loop runs to its end exactly when no iteration returns. *)
Lemma range_None (body : A -> option R) (xs : list A) :
  range body xs = None <-> Forall (fun x => body x = None) xs.
Proof.
  induction xs as [|x xs IH]; [by split; [constructor|]|].
  rewrite range_cons, Forall_cons, <- IH.
  destruct (body x) as [r|]; [|tauto].
  split; [discriminate | intros [Hx _]; discriminate].
Qed.

End Loops.

Lemma check_None (r : bool * option error) :
  check r = None <-> r = (true, None).
Proof. destruct r as [[] [e|]]; cbn; naive_solver. Qed.

Lemma check_Some (r r' : bool * option error) :
  check r = Some r' -> r' = (false, r.2).
Proof. destruct r as [[] [e|]]; cbn; naive_solver. Qed.

Section Properties.
Context `{ICal}.

(** When no child makes [matchChild] fail, the loop of [matchCompFilter]
    ends with the children that match appended to [matches], in order. *)
Lemma matchCompFilter_range_no_error
    (matchChild : Component -> bool * option error)
    (children matches : list Component) :
  Forall (fun child => (matchChild child).2 = None) children ->
  matchCompFilter_range matchChild children matches =
  inl (matches ++ List.filter (fun child => (matchChild child).1) children).
Proof.
  intros Hok. revert matches.
  induction Hok as [|child children Hchild _ IH]; intros matches; cbn.
  - by rewrite app_nil_r.
  - destruct (matchChild child) as [[] err]; cbn in *; subst err.
    + by rewrite IH, <- app_assoc.
    + apply IH.
Qed.

(** The first child that makes [matchChild] fail ends the loop with its
    error, whatever the children before it did. *)
Lemma matchCompFilter_range_error
    (matchChild : Component -> bool * option error)
    (before after matches : list Component) (child : Component) (err : error) :
  Forall (fun c => (matchChild c).2 = None) before ->
  (matchChild child).2 = Some err ->
  matchCompFilter_range matchChild (before ++ child :: after) matches =
  inr (false, Some err).
Proof.
  intros Hok Herr. revert matches.
  induction Hok as [|c before Hc _ IH]; intros matches; cbn.
  - destruct (matchChild child) as [[] e]; cbn in *; by subst e.
  - destruct (matchChild c) as [[] e]; cbn in *; subst e; apply IH.
Qed.

(** [matchCompFilter] is fail-fast: the error of the first child on which
    the child matcher fails is returned, with false, even when a child before
    it matched. *)
Lemma matchCompFilter_first_error (filter : CompFilter) (comp : Component)
    (before after : list Component) (child : Component) (err : error) :
  Component_Children comp = before ++ child :: after ->
  Forall (fun c => (matchCompFilterChild filter c).2 = None) before ->
  (matchCompFilterChild filter child).2 = Some err ->
  matchCompFilter filter comp = (false, Some err).
Proof.
  intros Hchildren Hok Herr. unfold matchCompFilter, matchCompFilter_body.
  by rewrite Hchildren, (matchCompFilter_range_error _ _ _ _ _ _ Hok Herr).
Qed.

Lemma matchCompFilter_unfold (filter : CompFilter) (comp : Component) :
  matchCompFilter filter comp =
  match matchCompFilter_range (matchCompFilterChild filter)
                              (Component_Children comp) [] with
  | inr r => r
  | inl matches =>
    if bool_decide (length matches = 0%nat)
    then (CompFilter_IsNotDefined filter, None)
    else (true, None)
  end.
Proof. reflexivity. Qed.

(** [matchCompFilterChild], with its recursive calls read as calls of
    [matchCompFilter], as the source has them. *)
Lemma matchCompFilterChild_unfold (filter : CompFilter) (comp : Component) :
  matchCompFilterChild filter comp =
  if bool_decide (Component_Name comp ≠ CompFilter_Name filter)
  then (false, None)
  else
    (if bool_decide (CompFilter_Start filter ≠ zeroDate)
     then check (matchCompTimeRange (CompFilter_Start filter)
                                    (CompFilter_End filter) comp)
     else None) ;;;
    range (fun compFilter => check (matchCompFilter compFilter comp))
          (CompFilter_Comps filter) ;;;
    range (fun propFilter => check (matchPropFilter propFilter comp))
          (CompFilter_Props filter) ;;;
    (true, None).
Proof. by destruct filter. Qed.

(** Error-free evaluation of [matchCompFilter]: the result is decided by
    whether some child matches. *)
Lemma matchCompFilter_no_error (filter : CompFilter) (comp : Component) :
  Forall (fun child => (matchCompFilterChild filter child).2 = None)
         (Component_Children comp) ->
  matchCompFilter filter comp =
  (if existsb (fun child => (matchCompFilterChild filter child).1)
              (Component_Children comp)
   then true else CompFilter_IsNotDefined filter, None).
Proof.
  intros Hok. rewrite matchCompFilter_unfold.
  rewrite (matchCompFilter_range_no_error _ _ _ Hok). cbn.
  induction (Component_Children comp) as [|child children IH]; [done|].
  cbn. destruct (matchCompFilterChild filter child).1; cbn; [done|].
  apply IH. by inversion Hok.
Qed.

(** The parameter-filter loop lets the function go on exactly when every
    parameter filter matches; otherwise it returns [false, nil]. *)
Lemma range_ParamFilter_spec (filter : PropFilter) (field : ical_Prop) :
  range_ParamFilter filter field =
  if forallb (fun paramFilter => matchParamFilter paramFilter field)
             (PropFilter_ParamFilter filter)
  then None else Some (false, None).
Proof.
  unfold range_ParamFilter.
  induction (PropFilter_ParamFilter filter) as [|pf pfs IH]; [done|].
  rewrite range_cons. cbn. by destruct (matchParamFilter pf field).
Qed.

End Properties.

(** ** The specification's claims *)

Section Claims.
Context `{ICal}.

(** C1, as the code behaves: a PropFilter with IsNotDefined=true and neither
    a time range nor a TextMatch makes matchPropFilter return (true, nil) on
    every component. It returns true when no property named filter.Name
    exists, as the claim says, and it also returns true when such a property
    exists, where the claim says false. *)
Theorem matchPropFilter_IsNotDefined_always_true
    (filter : PropFilter) (comp : Component) :
  PropFilter_IsNotDefined filter = true ->
  PropFilter_Start filter = zeroDate ->
  PropFilter_TextMatch filter = None ->
  matchPropFilter filter comp = (true, None).
Proof.
  intros Hnd Hstart Htxt. unfold matchPropFilter.
  destruct (Props_Get _ _) as [field|]; [|by rewrite Hnd].
  rewrite Hstart, Htxt. by rewrite bool_decide_eq_false_2 by (by intros []).
Qed.

(** The nested filter of C2 never fails on a child and matches the children
    named VALARM. *)
Lemma matchCompFilterChild_valarm_not_defined (child : Component) :
  matchCompFilterChild valarm_not_defined child =
  (bool_decide (Component_Name child = "VALARM"), None).
Proof.
  rewrite matchCompFilterChild_unfold. cbn.
  by repeat case_bool_decide.
Qed.

(** C2, as the code behaves: the nested component filter
    {Name: "VALARM", IsNotDefined: true} matches every component, and so the
    CompFilter {Name: "VEVENT", Comps: [that filter]} matches every VEVENT
    component: one with zero VALARM children, as the claim says, and also one
    with VALARM children, where the claim says false. *)
Theorem vevent_without_valarm_always_true (comp : Component) :
  Component_Name comp = "VEVENT" ->
  matchCompFilter valarm_not_defined comp = (true, None) /\
  matchCompFilterChild vevent_without_valarm comp = (true, None).
Proof.
  intros Hname.
  assert (matchCompFilter valarm_not_defined comp = (true, None)) as Hnested.
  { rewrite matchCompFilter_no_error.
    - cbn. by destruct (existsb _ _).
    - apply Forall_forall. intros child _.
      by rewrite matchCompFilterChild_valarm_not_defined. }
  split; [done|].
  rewrite matchCompFilterChild_unfold. cbn.
  rewrite Hname, Hnested. cbn.
  by repeat case_bool_decide.
Qed.

(** C3, amended: for every CompFilter and every component on whose direct
    children matchCompFilterChild returns no error, matchCompFilter returns
    (true, nil) if at least one direct child matches the filter, and
    (filter.IsNotDefined, nil) when zero children match. *)
Theorem matchCompFilter_exists_child (filter : CompFilter) (comp : Component) :
  Forall (fun child => (matchCompFilterChild filter child).2 = None)
         (Component_Children comp) ->
  ((exists child, child ∈ Component_Children comp /\
                  matchCompFilterChild filter child = (true, None)) ->
   matchCompFilter filter comp = (true, None)) /\
  ((forall child, child ∈ Component_Children comp ->
                  matchCompFilterChild filter child <> (true, None)) ->
   matchCompFilter filter comp = (CompFilter_IsNotDefined filter, None)).
Proof.
  intros Hok. rewrite (matchCompFilter_no_error _ _ Hok). split.
  - intros (child & Hin & Hmatch).
    replace (existsb _ _) with true; [done|].
    symmetry. apply existsb_exists. exists child.
    rewrite <- list_elem_of_In, Hmatch. done.
  - intros Hnone.
    replace (existsb _ _) with false; [done|].
    symmetry. apply not_true_is_false. intros Hex.
    apply existsb_exists in Hex as (child & Hin & Hmatch).
    apply list_elem_of_In in Hin.
    apply (Hnone child Hin).
    rewrite Forall_forall in Hok. specialize (Hok child Hin).
    destruct (matchCompFilterChild filter child) as [b e]; cbn in *.
    by subst.
Qed.

(** C4: for every interval (start, end) and component, matchCompTimeRange
    returns (false, nil) for a component that is not a VEVENT; for a VEVENT
    whose start and end date-times derive without error it returns, with a
    nil error, true iff the event's start lies strictly inside (start, end),
    or the event's end lies strictly inside (start, end), or the event spans
    the interval (eventStart < start and eventEnd > end). All comparisons
    are strict. *)
Theorem matchCompTimeRange_overlap (start end_ : Time) (comp : Component) :
  (Component_Name comp <> CompEvent ->
   matchCompTimeRange start end_ comp = (false, None)) /\
  (forall eventStart eventEnd : Time,
     Component_Name comp = CompEvent ->
     Event_DateTimeStart comp (Time_Location start) = (eventStart, None) ->
     Event_DateTimeEnd comp (Time_Location end_) = (eventEnd, None) ->
     exists matched : bool,
       matchCompTimeRange start end_ comp = (matched, None) /\
       (matched = true <->
        Time_instant start < Time_instant eventStart < Time_instant end_ \/
        Time_instant start < Time_instant eventEnd < Time_instant end_ \/
        (Time_instant eventStart < Time_instant start /\
         Time_instant end_ < Time_instant eventEnd))).
Proof.
  unfold matchCompTimeRange. split.
  - intros Hname. by rewrite bool_decide_eq_true_2.
  - intros eventStart eventEnd Hname Hstart Hend.
    rewrite bool_decide_eq_false_2 by (intros Hne; by apply Hne).
    rewrite Hstart, Hend. unfold Time_After, Time_Before.
    destruct (Z.ltb_spec (Time_instant start) (Time_instant eventStart));
      destruct (Z.ltb_spec (Time_instant eventStart) (Time_instant end_));
      destruct (Z.ltb_spec (Time_instant start) (Time_instant eventEnd));
      destruct (Z.ltb_spec (Time_instant eventEnd) (Time_instant end_));
      destruct (Z.ltb_spec (Time_instant eventStart) (Time_instant start));
      destruct (Z.ltb_spec (Time_instant end_) (Time_instant eventEnd));
      cbn; eexists; (split; [reflexivity|]);
      (split; [intros ?; first [discriminate | lia] | intros ?; first [reflexivity | lia]]).
Qed.

(** C5: for every component on which a property named filter.Name exists,
    a PropFilter with neither a time range nor a TextMatch returns
    (true, nil) by mere existence of the property, whatever its ParamFilter
    entries are; in the time-range and the text-match branches, a result of
    true requires every ParamFilter entry to match. *)
Theorem matchPropFilter_existence
    (filter : PropFilter) (comp : Component) (field : ical_Prop) :
  Props_Get (Component_Props comp) (PropFilter_Name filter) = Some field ->
  (PropFilter_Start filter = zeroDate ->
   PropFilter_TextMatch filter = None ->
   matchPropFilter filter comp = (true, None)) /\
  ((PropFilter_Start filter <> zeroDate \/
    PropFilter_TextMatch filter <> None) ->
   matchPropFilter filter comp = (true, None) ->
   forall paramFilter, paramFilter ∈ PropFilter_ParamFilter filter ->
                       matchParamFilter paramFilter field = true).
Proof.
  intros Hfield. unfold matchPropFilter. rewrite Hfield. split.
  - intros -> ->. by rewrite bool_decide_eq_false_2 by (by intros []).
  - intros Hbranch Hres paramFilter Hin.
    assert (range_ParamFilter filter field = None) as Hloop.
    { case_bool_decide.
      - destruct (check _) as [r|] eqn:Hcheck; cbn in Hres.
        + apply check_Some in Hcheck. by subst r.
        + destruct (range_ParamFilter filter field) as [r|] eqn:Hr; [|done].
          rewrite range_ParamFilter_spec in Hr.
          destruct (forallb _ _); [done|]. by simplify_eq.
      - destruct (PropFilter_TextMatch filter) as [txt|];
          [|exfalso; destruct Hbranch as [Hb|Hb]; [tauto | by apply Hb]].
        destruct (matchTextMatch txt (Prop_Value field)); cbn in Hres; [|done].
        destruct (range_ParamFilter filter field) as [r|] eqn:Hr; [|done].
        rewrite range_ParamFilter_spec in Hr.
        destruct (forallb _ _); [done|]. by simplify_eq. }
    rewrite range_ParamFilter_spec in Hloop.
    destruct (forallb _ _) eqn:Hall; [|done].
    rewrite forallb_forall in Hall. apply Hall. by apply list_elem_of_In.
Qed.

(** The loop of [Filter] stops at the first object on which [Match] fails. *)
Lemma Filter_range_error (query : CalendarQuery)
    (before after out : list CalendarObject) (co : CalendarObject)
    (err : error) :
  Forall (fun c => (Match (CalendarQuery_CompFilter query) c).2 = None)
         before ->
  (Match (CalendarQuery_CompFilter query) co).2 = Some err ->
  Filter_range query (before ++ co :: after) out = (None, Some err).
Proof.
  intros Hok Herr. revert out.
  induction Hok as [|c before Hc _ IH]; intros out; cbn.
  - destruct (Match _ co) as [[] e]; cbn in *; by subst e.
  - destruct (Match _ c) as [[] e]; cbn in *; subst e; apply IH.
Qed.

(** C6: for every non-nil query and every object list, if a Match call
    inside Filter (the call on an object before which no call failed)
    returns an error, Filter returns a nil slice together with that same
    error, whatever objects come after the failing one. *)
Theorem Filter_fail_fast (query : CalendarQuery)
    (before after : list CalendarObject) (co : CalendarObject) (err : error) :
  Forall (fun c => (Match (CalendarQuery_CompFilter query) c).2 = None)
         before ->
  (Match (CalendarQuery_CompFilter query) co).2 = Some err ->
  Filter (Some query) (Some (before ++ co :: after)) = (None, Some err).
Proof. intros Hok Herr. by apply Filter_range_error. Qed.

(** C7: for every query CompFilter, Match returns (false, nil) whenever the
    calendar object has no parsed calendar data (nil data or nil root
    component), regardless of the query's contents. *)
Theorem Match_no_data (query : CompFilter) (co : CalendarObject) :
  CalendarObject_Data co = None \/
  CalendarObject_Data co = Some (mkCalendar None) ->
  Match query co = (false, None).
Proof. unfold Match. by intros [-> | ->]. Qed.

(** C8: for every query CompFilter and every calendar object with parsed
    data whose root component name differs from query.Name, Match returns
    (query.IsNotDefined, nil). *)
Theorem Match_name_mismatch (query : CompFilter) (co : CalendarObject)
    (comp : Component) :
  CalendarObject_Data co = Some (mkCalendar (Some comp)) ->
  CompFilter_Name query <> Component_Name comp ->
  Match query co = (CompFilter_IsNotDefined query, None).
Proof.
  intros Hdata Hname. unfold Match. rewrite Hdata. cbn.
  by rewrite bool_decide_eq_true_2.
Qed.

(** C9: for every input slice objs (the nil slice and the empty slice
    included), Filter(nil, objs) returns objs itself together with a nil
    error. *)
Theorem Filter_nil_query (cos : option (list CalendarObject)) :
  Filter None cos = (cos, None).
Proof. reflexivity. Qed.

(** C10: for every calendar object, the result of Match is independent of
    the root query's own Start and End: two queries identical except in
    their top-level Start and End give the same (bool, error) result. *)
Theorem Match_ignores_root_range (query query' : CompFilter)
    (co : CalendarObject) :
  CompFilter_Name query = CompFilter_Name query' ->
  CompFilter_IsNotDefined query = CompFilter_IsNotDefined query' ->
  CompFilter_Props query = CompFilter_Props query' ->
  CompFilter_Comps query = CompFilter_Comps query' ->
  Match query co = Match query' co.
Proof.
  destruct query, query'; cbn. intros -> -> -> ->. reflexivity.
Qed.

End Claims.

(** ** Further properties of the evaluator *)

Section MoreLoops.
Context {A : Type} (f : A -> bool * option error).

(** A loop of checked matcher calls runs to its end exactly when every call
    returns [true, nil]. *)
Lemma range_check_None (xs : list A) :
  range (fun x => check (f x)) xs = None <->
  Forall (fun x => f x = (true, None)) xs.
Proof.
  rewrite range_None. apply Forall_iff. intros x. apply check_None.
Qed.

(** The first call that does not return [true, nil] makes the function
    return false, with the error of that call. *)
Lemma range_check_first (before after : list A) (x : A) :
  Forall (fun y => f y = (true, None)) before ->
  f x <> (true, None) ->
  range (fun y => check (f y)) (before ++ x :: after) = Some (false, (f x).2).
Proof.
  intros Hbefore Hx.
  induction Hbefore as [|y before Hy _ IH]; cbn.
  - destruct (f x) as [[] [e|]]; cbn; congruence.
  - by rewrite Hy.
Qed.

(** Without errors the loop is a conjunction. *)
Lemma range_check_no_error (xs : list A) :
  Forall (fun x => (f x).2 = None) xs ->
  range (fun x => check (f x)) xs =
  if forallb (fun x => (f x).1) xs then None else Some (false, None).
Proof.
  induction 1 as [|x xs Hx _ IH]; [done|]. cbn.
  destruct (f x) as [[] e]; cbn in *; subst e; [apply IH | done].
Qed.

(** When a loop of checked matcher calls returns, it returns false. *)
Lemma range_check_Some (xs : list A) (r : bool * option error) :
  range (fun x => check (f x)) xs = Some r -> r.1 = false.
Proof.
  induction xs as [|x xs IH]; [done|]. rewrite range_cons.
  destruct (check (f x)) as [r'|] eqn:Hcheck; [|done].
  intros [= <-]. apply check_Some in Hcheck. by subst r'.
Qed.

End MoreLoops.

(** Induction on a filter tree, with the property at hand for all nested
    component filters. *)
Lemma CompFilter_nested_ind (P : CompFilter -> Prop) :
  (forall name isNotDefined start end_ props comps,
     Forall P comps ->
     P (mkCompFilter name isNotDefined start end_ props comps)) ->
  forall filter, P filter.
Proof.
  intros Hstep. fix IH 1. intros [name nd start end_ props comps].
  apply Hstep. induction comps as [|c comps IHcomps]; constructor.
  - apply IH.
  - apply IHcomps.
Qed.

Section MoreProperties.
Context `{ICal}.

(** Without errors, the loop of [Filter] keeps the objects that match, in
    their order, after [out]. *)
Lemma Filter_range_no_error (query : CalendarQuery)
    (cos out : list CalendarObject) :
  Forall (fun co => (Match (CalendarQuery_CompFilter query) co).2 = None)
         cos ->
  Filter_range query cos out =
  (Some (out ++ List.filter
                  (fun co => (Match (CalendarQuery_CompFilter query) co).1)
                  cos), None).
Proof.
  intros Hok. revert out.
  induction Hok as [|co cos Hco _ IH]; intros out; cbn.
  - by rewrite app_nil_r.
  - destruct (Match _ co) as [[] e]; cbn in *; subst e.
    + by rewrite IH, <- app_assoc.
    + apply IH.
Qed.

(** A property filter without a time range never returns an error. *)
Lemma matchPropFilter_untimed_no_error (filter : PropFilter)
    (comp : Component) :
  PropFilter_untimed filter = true ->
  (matchPropFilter filter comp).2 = None.
Proof.
  unfold PropFilter_untimed, matchPropFilter. intros Hstart.
  apply bool_decide_eq_true_1 in Hstart.
  destruct (Props_Get _ _) as [field|]; [|done].
  rewrite bool_decide_eq_false_2 by (intros Hne; by apply Hne).
  destruct (PropFilter_TextMatch filter) as [txt|]; [|done].
  rewrite range_ParamFilter_spec.
  destruct (matchTextMatch _ _); [|done]. cbn.
  by destruct (forallb _ _).
Qed.

(** A component filter without any time range never returns an error on a
    candidate child. *)
Lemma matchCompFilterChild_untimed_no_error (filter : CompFilter) :
  CompFilter_untimed filter = true ->
  forall comp, (matchCompFilterChild filter comp).2 = None.
Proof.
  induction filter as [name nd start end_ props comps IH]
    using CompFilter_nested_ind.
  intros Huntimed comp. cbn in Huntimed.
  apply andb_prop in Huntimed as [Huntimed Hcomps].
  apply andb_prop in Huntimed as [Hstart Hprops].
  apply bool_decide_eq_true_1 in Hstart.
  rewrite matchCompFilterChild_unfold. cbn.
  case_bool_decide; [done|].
  rewrite bool_decide_eq_false_2 by (intros Hne; by apply Hne). cbn.
  assert (Forall (fun cf => (matchCompFilter cf comp).2 = None) comps)
    as Hcomps_ok.
  { rewrite Forall_forall in IH. apply Forall_forall. intros cf Hcf.
    rewrite matchCompFilter_no_error; [done|].
    apply Forall_forall. intros child _. apply (IH cf Hcf).
    rewrite forallb_forall in Hcomps. apply Hcomps.
    by apply list_elem_of_In. }
  assert (Forall (fun pf => (matchPropFilter pf comp).2 = None) props)
    as Hprops_ok.
  { apply Forall_forall. intros pf Hpf.
    apply matchPropFilter_untimed_no_error.
    rewrite forallb_forall in Hprops. apply Hprops.
    by apply list_elem_of_In. }
  rewrite (range_check_no_error _ _ Hcomps_ok).
  rewrite (range_check_no_error _ _ Hprops_ok).
  destruct (forallb (fun cf => (matchCompFilter cf comp).1) comps); [|done].
  by destruct (forallb (fun pf => (matchPropFilter pf comp).1) props).
Qed.

(** The two loops that end [Match] and [matchCompFilterChild] let the
    function return [true, nil] exactly when every nested component filter
    and every property filter returns [true, nil]. *)
Lemma nested_filters_true_iff (comps : list CompFilter)
    (props : list PropFilter) (comp : Component) :
  (range (fun compFilter => check (matchCompFilter compFilter comp)) comps ;;;
   range (fun propFilter => check (matchPropFilter propFilter comp)) props ;;;
   (true, None)) = (true, None) <->
  Forall (fun compFilter => matchCompFilter compFilter comp = (true, None))
         comps /\
  Forall (fun propFilter => matchPropFilter propFilter comp = (true, None))
         props.
Proof.
  rewrite <- !range_check_None.
  destruct (range _ comps) as [r|] eqn:Hcomps; cbn.
  - apply range_check_Some in Hcomps. destruct r as [b e]; cbn in *; subst b.
    split; [done | by intros [? _]].
  - destruct (range _ props) as [r|] eqn:Hprops; cbn.
    + apply range_check_Some in Hprops.
      destruct r as [b e]; cbn in *; subst b.
      split; [done | by intros [_ ?]].
    + done.
Qed.

(** The first nested component filter that does not return [true, nil]
    decides the result; the property filters are not looked at. *)
Lemma nested_filters_first_comp (before after : list CompFilter)
    (compFilter : CompFilter) (props : list PropFilter) (comp : Component) :
  Forall (fun cf => matchCompFilter cf comp = (true, None)) before ->
  matchCompFilter compFilter comp <> (true, None) ->
  (range (fun cf => check (matchCompFilter cf comp))
         (before ++ compFilter :: after) ;;;
   range (fun pf => check (matchPropFilter pf comp)) props ;;;
   (true, None)) = (false, (matchCompFilter compFilter comp).2).
Proof.
  intros Hbefore Hcf.
  by rewrite (range_check_first (fun cf => matchCompFilter cf comp)
                _ _ _ Hbefore Hcf).
Qed.

(** When every nested component filter returns [true, nil], the first
    property filter that does not decides the result. *)
Lemma nested_filters_first_prop (comps : list CompFilter)
    (before after : list PropFilter) (propFilter : PropFilter)
    (comp : Component) :
  Forall (fun cf => matchCompFilter cf comp = (true, None)) comps ->
  Forall (fun pf => matchPropFilter pf comp = (true, None)) before ->
  matchPropFilter propFilter comp <> (true, None) ->
  (range (fun cf => check (matchCompFilter cf comp)) comps ;;;
   range (fun pf => check (matchPropFilter pf comp))
         (before ++ propFilter :: after) ;;;
   (true, None)) = (false, (matchPropFilter propFilter comp).2).
Proof.
  intros Hcomps Hbefore Hpf.
  apply range_check_None in Hcomps. rewrite Hcomps. cbn.
  by rewrite (range_check_first (fun pf => matchPropFilter pf comp)
                _ _ _ Hbefore Hpf).
Qed.

(** The error of [Filter]'s loop is nil exactly when [Match] fails on no
    object, and the slice is nil exactly when the error is not. *)
Lemma Filter_range_error_iff (query : CalendarQuery)
    (cos out : list CalendarObject) :
  ((Filter_range query cos out).2 = None <->
   Forall (fun co => (Match (CalendarQuery_CompFilter query) co).2 = None)
          cos) /\
  ((Filter_range query cos out).1 = None <->
   (Filter_range query cos out).2 <> None).
Proof.
  revert out. induction cos as [|co cos IH]; intros out; cbn.
  - split; [by split; [constructor|] | split; [done | intros Hne; by destruct Hne]].
  - rewrite Forall_cons.
    destruct (Match _ co) as [[] [e|]]; cbn.
    + split; split; try done. by intros [? _].
    + destruct (IH (out ++ [co])) as [IH1 IH2]. rewrite IH1, IH2. tauto.
    + split; split; try done. by intros [? _].
    + destruct (IH out) as [IH1 IH2]. rewrite IH1, IH2. tauto.
Qed.

Lemma filter_idempotent {A : Type} (p : A -> bool) (l : list A) :
  List.filter p (List.filter p l) = List.filter p l.
Proof.
  induction l as [|x l IH]; [done|]. cbn.
  destruct (p x) eqn:Hx; [|done]. cbn. by rewrite Hx, IH.
Qed.

Lemma Forall_filter_keeps {A : Type} (P : A -> Prop) (p : A -> bool)
    (l : list A) :
  Forall P l -> Forall P (List.filter p l).
Proof.
  induction 1 as [|x l Hx _ IH]; [constructor|]. cbn.
  destruct (p x); [by constructor | done].
Qed.

End MoreProperties.

Section Extras.
Context `{ICal}.

(** X1: matchTextMatch without negation is true exactly when the value
    equals the text, character for character; with NegateCondition set it
    returns the opposite. *)
Theorem matchTextMatch_equality (text value : string) :
  (matchTextMatch (mkTextMatch text false) value = true <-> value = text) /\
  (matchTextMatch (mkTextMatch text true) value = true <-> value <> text) /\
  matchTextMatch (mkTextMatch text true) value =
    negb (matchTextMatch (mkTextMatch text false) value).
Proof.
  unfold matchTextMatch; cbn. case_bool_decide; cbn; intuition congruence.
Qed.

(** X2: matchParamFilter returns true in exactly two cases: the parameter
    value is empty (absent) and IsNotDefined is set; or the value is not
    empty, IsNotDefined is not set and the TextMatch, if there is one,
    matches the value. *)
Theorem matchParamFilter_true_iff (filter : ParamFilter) (field : ical_Prop) :
  let value := Params_Get (Prop_Params field) (ParamFilter_Name filter) in
  matchParamFilter filter field = true <->
  (value = "" /\ ParamFilter_IsNotDefined filter = true) \/
  (value <> "" /\ ParamFilter_IsNotDefined filter = false /\
   forall txt, ParamFilter_TextMatch filter = Some txt ->
               matchTextMatch txt value = true).
Proof.
  cbn. unfold matchParamFilter.
  case_bool_decide as Hvalue.
  - split; [intros ->; by left | intros [[_ ?]|[? _]]; done].
  - destruct (ParamFilter_IsNotDefined filter).
    + split; [done | intros [[? _]|(_ & ? & _)]; done].
    + destruct (ParamFilter_TextMatch filter) as [txt|].
      * split.
        -- intros Htxt. right. repeat split; [done|].
           intros txt' [= <-]. done.
        -- intros [[? _]|(_ & _ & Htxt)]; [done|]. by apply Htxt.
      * split; [|done]. intros _. right. repeat split; [done|]. done.
Qed.

(** X3: for a parameter filter with IsNotDefined set, matchParamFilter is
    true exactly when the parameter is absent (its value is empty),
    whatever its TextMatch. *)
Theorem matchParamFilter_IsNotDefined (filter : ParamFilter)
    (field : ical_Prop) :
  ParamFilter_IsNotDefined filter = true ->
  (matchParamFilter filter field = true <->
   Params_Get (Prop_Params field) (ParamFilter_Name filter) = "").
Proof.
  intros Hnd. unfold matchParamFilter. rewrite Hnd.
  case_bool_decide; split; done.
Qed.

(** X4: matchPropTimeRange returns the error of the property's date-time
    with false; otherwise it returns, with a nil error, true exactly when
    the date-time lies strictly between start and end. *)
Theorem matchPropTimeRange_inside (start end_ : Time) (field : ical_Prop) :
  (forall t err,
     Prop_DateTime field (Time_Location start) = (t, Some err) ->
     matchPropTimeRange start end_ field = (false, Some err)) /\
  (forall ptime,
     Prop_DateTime field (Time_Location start) = (ptime, None) ->
     exists matched : bool,
       matchPropTimeRange start end_ field = (matched, None) /\
       (matched = true <->
        Time_instant start < Time_instant ptime < Time_instant end_)).
Proof.
  unfold matchPropTimeRange. split.
  - by intros t err ->.
  - intros ptime ->. unfold Time_After, Time_Before.
    destruct (Z.ltb_spec (Time_instant start) (Time_instant ptime));
      destruct (Z.ltb_spec (Time_instant ptime) (Time_instant end_));
      cbn; eexists; (split; [reflexivity|]);
      (split; [intros ?; first [discriminate | lia]
              | intros ?; first [reflexivity | lia]]).
Qed.

(** X5: an event that starts exactly at the start of the range and ends at
    or after its end, or that starts at or before its start and ends
    exactly at its end, is not matched by matchCompTimeRange; in particular
    an event whose start and end are those of the range is not matched. *)
Theorem matchCompTimeRange_same_boundary (start end_ : Time)
    (comp : Component) (eventStart eventEnd : Time) :
  Component_Name comp = CompEvent ->
  Event_DateTimeStart comp (Time_Location start) = (eventStart, None) ->
  Event_DateTimeEnd comp (Time_Location end_) = (eventEnd, None) ->
  (Time_instant eventStart = Time_instant start /\
   Time_instant end_ <= Time_instant eventEnd) \/
  (Time_instant eventStart <= Time_instant start /\
   Time_instant eventEnd = Time_instant end_) ->
  matchCompTimeRange start end_ comp = (false, None).
Proof.
  intros Hname Hstart Hend Hbound. unfold matchCompTimeRange.
  rewrite bool_decide_eq_false_2 by (intros Hne; by apply Hne).
  rewrite Hstart, Hend. unfold Time_After, Time_Before.
  destruct (Z.ltb_spec (Time_instant start) (Time_instant eventStart));
    destruct (Z.ltb_spec (Time_instant eventStart) (Time_instant end_));
    destruct (Z.ltb_spec (Time_instant start) (Time_instant eventEnd));
    destruct (Z.ltb_spec (Time_instant eventEnd) (Time_instant end_));
    destruct (Z.ltb_spec (Time_instant eventStart) (Time_instant start));
    destruct (Z.ltb_spec (Time_instant end_) (Time_instant eventEnd));
    cbn; first [reflexivity | lia].
Qed.

(** X6: matchCompTimeRange on a VEVENT returns false with the error of the
    event's start, without looking at its end; and with the error of the
    event's end when the start derives without error. *)
Theorem matchCompTimeRange_error (start end_ : Time) (comp : Component)
    (err : error) :
  Component_Name comp = CompEvent ->
  (Event_DateTimeStart comp (Time_Location start)).2 = Some err \/
  ((Event_DateTimeStart comp (Time_Location start)).2 = None /\
   (Event_DateTimeEnd comp (Time_Location end_)).2 = Some err) ->
  matchCompTimeRange start end_ comp = (false, Some err).
Proof.
  intros Hname Herr. unfold matchCompTimeRange.
  rewrite bool_decide_eq_false_2 by (intros Hne; by apply Hne).
  destruct (Event_DateTimeStart _ _) as [eventStart [e|]]; cbn in Herr.
  - destruct Herr as [[= ->]|[? _]]; done.
  - destruct Herr as [?|[_ Herr]]; [done|].
    destruct (Event_DateTimeEnd _ _) as [eventEnd [e|]]; cbn in Herr; [|done].
    by injection Herr as ->.
Qed.

(** X7: in a property filter with a time range the TextMatch is ignored:
    the result is that of the same filter without TextMatch. *)
Theorem matchPropFilter_range_over_text (name : string) (isNotDefined : bool)
    (start end_ : Time) (txt : TextMatch) (paramFilters : list ParamFilter)
    (comp : Component) :
  start <> zeroDate ->
  matchPropFilter
    (mkPropFilter name isNotDefined start end_ (Some txt) paramFilters) comp =
  matchPropFilter
    (mkPropFilter name isNotDefined start end_ None paramFilters) comp.
Proof.
  intros Hstart. unfold matchPropFilter; cbn.
  destruct (Props_Get _ _) as [field|]; [|done].
  by rewrite bool_decide_eq_true_2.
Qed.

(** X8: on a component that has the property, a property filter with a
    TextMatch and no time range returns, with a nil error, true exactly
    when the text match holds on the property's value and every parameter
    filter matches. *)
Theorem matchPropFilter_text (filter : PropFilter) (comp : Component)
    (field : ical_Prop) (txt : TextMatch) :
  Props_Get (Component_Props comp) (PropFilter_Name filter) = Some field ->
  PropFilter_Start filter = zeroDate ->
  PropFilter_TextMatch filter = Some txt ->
  matchPropFilter filter comp =
  (matchTextMatch txt (Prop_Value field)
   && forallb (fun paramFilter => matchParamFilter paramFilter field)
              (PropFilter_ParamFilter filter), None).
Proof.
  intros Hfield Hstart Htxt. unfold matchPropFilter.
  rewrite Hfield, Hstart, Htxt.
  rewrite bool_decide_eq_false_2 by (intros Hne; by apply Hne).
  rewrite range_ParamFilter_spec.
  destruct (matchTextMatch _ _); [|done]. cbn.
  by destruct (forallb _ _).
Qed.

(** X9: on a component that has the property, a property filter with a
    time range returns the error of the property's date-time if there is
    one; otherwise, with a nil error, true exactly when the date-time lies
    strictly inside the range and every parameter filter matches. *)
Theorem matchPropFilter_time_range (filter : PropFilter) (comp : Component)
    (field : ical_Prop) :
  Props_Get (Component_Props comp) (PropFilter_Name filter) = Some field ->
  PropFilter_Start filter <> zeroDate ->
  matchPropFilter filter comp =
  match Prop_DateTime field (Time_Location (PropFilter_Start filter)) with
  | (_, Some err) => (false, Some err)
  | (ptime, None) =>
    (bool_decide (Time_instant (PropFilter_Start filter) < Time_instant ptime
                  < Time_instant (PropFilter_End filter))
     && forallb (fun paramFilter => matchParamFilter paramFilter field)
                (PropFilter_ParamFilter filter), None)
  end.
Proof.
  intros Hfield Hstart. unfold matchPropFilter.
  rewrite Hfield, bool_decide_eq_true_2 by done.
  unfold matchPropTimeRange, Time_After, Time_Before.
  destruct (Prop_DateTime _ _) as [ptime [err|]]; [done|].
  rewrite range_ParamFilter_spec.
  destruct (Z.ltb_spec (Time_instant (PropFilter_Start filter))
                       (Time_instant ptime));
    destruct (Z.ltb_spec (Time_instant ptime)
                         (Time_instant (PropFilter_End filter)));
    cbn.
  - rewrite bool_decide_eq_true_2 by lia. by destruct (forallb _ _).
  - by rewrite bool_decide_eq_false_2 by lia.
  - by rewrite bool_decide_eq_false_2 by lia.
  - by rewrite bool_decide_eq_false_2 by lia.
Qed.

(** X10: matchCompFilterChild returns (true, nil) exactly when the
    candidate's name is the filter's name, the filter has no time range or
    the candidate passes matchCompTimeRange, and every nested component
    filter and every property filter returns (true, nil) on the
    candidate. *)
Theorem matchCompFilterChild_true_iff (filter : CompFilter)
    (comp : Component) :
  matchCompFilterChild filter comp = (true, None) <->
  Component_Name comp = CompFilter_Name filter /\
  (CompFilter_Start filter = zeroDate \/
   matchCompTimeRange (CompFilter_Start filter) (CompFilter_End filter) comp
   = (true, None)) /\
  Forall (fun compFilter => matchCompFilter compFilter comp = (true, None))
         (CompFilter_Comps filter) /\
  Forall (fun propFilter => matchPropFilter propFilter comp = (true, None))
         (CompFilter_Props filter).
Proof.
  rewrite matchCompFilterChild_unfold.
  case_bool_decide as Hname; [split; [done | by intros [? _]]|].
  case_bool_decide as Hstart.
  - destruct (check _) as [r|] eqn:Hcheck; cbn.
    + pose proof (check_Some _ _ Hcheck) as Hr. subst r. split; [done|].
      intros (_ & [?|Htime] & _); [done|].
      by rewrite Htime in Hcheck.
    + apply check_None in Hcheck. rewrite nested_filters_true_iff.
      split; [intros [? ?]; by auto | by intros (_ & _ & ? & ?)].
  - cbn. rewrite nested_filters_true_iff.
    split; [intros [? ?]; by auto | by intros (_ & _ & ? & ?)].
Qed.

(** X11: on an object whose root component has the query's name, Match
    returns (true, nil) exactly when every nested component filter and
    every property filter of the query returns (true, nil) on the root; in
    particular a query without nested filters matches. *)
Theorem Match_true_iff (query : CompFilter) (co : CalendarObject)
    (comp : Component) :
  CalendarObject_Data co = Some (mkCalendar (Some comp)) ->
  CompFilter_Name query = Component_Name comp ->
  (Match query co = (true, None) <->
   Forall (fun compFilter => matchCompFilter compFilter comp = (true, None))
          (CompFilter_Comps query) /\
   Forall (fun propFilter => matchPropFilter propFilter comp = (true, None))
          (CompFilter_Props query)).
Proof.
  intros Hdata Hname. unfold Match. rewrite Hdata. cbn.
  rewrite bool_decide_eq_false_2 by (intros Hne; by apply Hne).
  apply nested_filters_true_iff.
Qed.

(** X12: Match evaluates the nested component filters in order and before
    the property filters: the first component filter that does not return
    (true, nil) makes Match return false with that filter's error (or nil),
    whatever the later component filters and the property filters are. *)
Theorem Match_first_failing_comp (query : CompFilter) (co : CalendarObject)
    (comp : Component) (before after : list CompFilter)
    (compFilter : CompFilter) :
  CalendarObject_Data co = Some (mkCalendar (Some comp)) ->
  CompFilter_Name query = Component_Name comp ->
  CompFilter_Comps query = before ++ compFilter :: after ->
  Forall (fun cf => matchCompFilter cf comp = (true, None)) before ->
  matchCompFilter compFilter comp <> (true, None) ->
  Match query co = (false, (matchCompFilter compFilter comp).2).
Proof.
  intros Hdata Hname Hcomps Hbefore Hcf. unfold Match. rewrite Hdata. cbn.
  rewrite bool_decide_eq_false_2 by (intros Hne; by apply Hne).
  rewrite Hcomps. by apply nested_filters_first_comp.
Qed.

(** X13: when every nested component filter returns (true, nil), the first
    property filter that does not makes Match return false with that
    filter's error (or nil), whatever the later property filters are. *)
Theorem Match_first_failing_prop (query : CompFilter) (co : CalendarObject)
    (comp : Component) (before after : list PropFilter)
    (propFilter : PropFilter) :
  CalendarObject_Data co = Some (mkCalendar (Some comp)) ->
  CompFilter_Name query = Component_Name comp ->
  Forall (fun cf => matchCompFilter cf comp = (true, None))
         (CompFilter_Comps query) ->
  CompFilter_Props query = before ++ propFilter :: after ->
  Forall (fun pf => matchPropFilter pf comp = (true, None)) before ->
  matchPropFilter propFilter comp <> (true, None) ->
  Match query co = (false, (matchPropFilter propFilter comp).2).
Proof.
  intros Hdata Hname Hcomps Hprops Hbefore Hpf. unfold Match.
  rewrite Hdata. cbn.
  rewrite bool_decide_eq_false_2 by (intros Hne; by apply Hne).
  rewrite Hprops. by apply nested_filters_first_prop.
Qed.

(** X14: on a component none of whose direct children has the filter's
    name, matchCompFilter returns (filter.IsNotDefined, nil): no time range
    and no nested filter is evaluated, so no error can come out. *)
Theorem matchCompFilter_no_child_named (filter : CompFilter)
    (comp : Component) :
  (forall child, child ∈ Component_Children comp ->
                 Component_Name child <> CompFilter_Name filter) ->
  matchCompFilter filter comp = (CompFilter_IsNotDefined filter, None).
Proof.
  intros Hnames.
  assert (Forall (fun child => matchCompFilterChild filter child
                               = (false, None))
                 (Component_Children comp)) as Hfalse.
  { apply Forall_forall. intros child Hin.
    rewrite matchCompFilterChild_unfold.
    by rewrite bool_decide_eq_true_2 by by apply Hnames. }
  rewrite matchCompFilter_no_error.
  - replace (existsb _ _) with false; [done|].
    symmetry. apply not_true_is_false. intros Hex.
    apply existsb_exists in Hex as (child & Hin & Hmatch).
    apply list_elem_of_In in Hin.
    rewrite Forall_forall in Hfalse. by rewrite (Hfalse child Hin) in Hmatch.
  - eapply Forall_impl; [exact Hfalse|]. by intros child ->.
Qed.

(** X15: a component filter with a time range whose name is not VEVENT
    matches no candidate, so matchCompFilter with it returns
    (filter.IsNotDefined, nil) on every component. *)
Theorem matchCompFilter_range_not_event (filter : CompFilter)
    (comp : Component) :
  CompFilter_Start filter <> zeroDate ->
  CompFilter_Name filter <> CompEvent ->
  matchCompFilterChild filter comp = (false, None) /\
  matchCompFilter filter comp = (CompFilter_IsNotDefined filter, None).
Proof.
  intros Hstart Hname.
  assert (forall c, matchCompFilterChild filter c = (false, None)) as Hchild.
  { intros c. rewrite matchCompFilterChild_unfold.
    case_bool_decide as Hc; [done|].
    rewrite bool_decide_eq_true_2 by done.
    unfold matchCompTimeRange.
    by rewrite bool_decide_eq_true_2 by congruence. }
  split; [apply Hchild|].
  rewrite matchCompFilter_no_error.
  - replace (existsb _ _) with false; [done|].
    symmetry. apply not_true_is_false. intros Hex.
    apply existsb_exists in Hex as (child & _ & Hmatch).
    by rewrite Hchild in Hmatch.
  - apply Forall_forall. intros child _. by rewrite Hchild.
Qed.

(** X16: a component filter in which no node has a time range never
    returns an error, neither on a candidate (matchCompFilterChild) nor on
    the children of a component (matchCompFilter). *)
Theorem matchCompFilter_untimed_no_error (filter : CompFilter)
    (comp : Component) :
  CompFilter_untimed filter = true ->
  (matchCompFilterChild filter comp).2 = None /\
  (matchCompFilter filter comp).2 = None.
Proof.
  intros Huntimed.
  split; [by apply matchCompFilterChild_untimed_no_error|].
  rewrite matchCompFilter_no_error; [done|].
  apply Forall_forall. intros child _.
  by apply matchCompFilterChild_untimed_no_error.
Qed.

(** X17: without errors, Filter with a query returns a non-nil slice with
    exactly the objects on which Match is true, in the order of the input;
    for a nil or empty input this is the empty slice. *)
Theorem Filter_keeps_matching (query : CalendarQuery)
    (cos : option (list CalendarObject)) :
  Forall (fun co => (Match (CalendarQuery_CompFilter query) co).2 = None)
         (slice_elements cos) ->
  Filter (Some query) cos =
  (Some (List.filter
           (fun co => (Match (CalendarQuery_CompFilter query) co).1)
           (slice_elements cos)), None).
Proof. intros Hok. cbn. by rewrite Filter_range_no_error. Qed.

(** X18: Filter with a query returns a nil error exactly when Match fails
    on no object of the input, and a nil slice exactly when it returns an
    error. *)
Theorem Filter_error_iff (query : CalendarQuery)
    (cos : option (list CalendarObject)) :
  ((Filter (Some query) cos).2 = None <->
   Forall (fun co => (Match (CalendarQuery_CompFilter query) co).2 = None)
          (slice_elements cos)) /\
  ((Filter (Some query) cos).1 = None <-> (Filter (Some query) cos).2 <> None).
Proof. apply Filter_range_error_iff. Qed.

(** X19: filtering is idempotent: when Filter succeeds on a list, filtering
    its result with the same query returns that result again. *)
Theorem Filter_idempotent (query : CalendarQuery)
    (cos : option (list CalendarObject)) :
  Forall (fun co => (Match (CalendarQuery_CompFilter query) co).2 = None)
         (slice_elements cos) ->
  Filter (Some query) (Filter (Some query) cos).1 = Filter (Some query) cos.
Proof.
  intros Hok. cbn. rewrite (Filter_range_no_error _ _ _ Hok). cbn.
  rewrite Filter_range_no_error by by apply Forall_filter_keeps.
  cbn. by rewrite filter_idempotent.
Qed.

(** X20: when no nested filter of the query has a time range, Match never
    returns an error (the root's own time range is not looked at), and
    Filter returns the matching objects with a nil error on every input. *)
Theorem Filter_untimed_total (query : CalendarQuery)
    (cos : option (list CalendarObject)) :
  forallb CompFilter_untimed
          (CompFilter_Comps (CalendarQuery_CompFilter query)) = true ->
  forallb PropFilter_untimed
          (CompFilter_Props (CalendarQuery_CompFilter query)) = true ->
  (forall co, (Match (CalendarQuery_CompFilter query) co).2 = None) /\
  Filter (Some query) cos =
  (Some (List.filter
           (fun co => (Match (CalendarQuery_CompFilter query) co).1)
           (slice_elements cos)), None).
Proof.
  intros Hcomps Hprops.
  assert (forall co, (Match (CalendarQuery_CompFilter query) co).2 = None)
    as Hmatch.
  { intros co. unfold Match.
    destruct (CalendarObject_Data co) as [[[comp|]]|]; [|done..].
    cbn. case_bool_decide; [done|].
    rewrite !range_check_no_error.
    - destruct (forallb (fun cf => (matchCompFilter cf comp).1) _); [|done].
      by destruct (forallb (fun pf => (matchPropFilter pf comp).1) _).
    - apply Forall_forall. intros pf Hpf.
      apply matchPropFilter_untimed_no_error.
      rewrite forallb_forall in Hprops. apply Hprops.
      by apply list_elem_of_In.
    - apply Forall_forall. intros cf Hcf.
      rewrite matchCompFilter_no_error; [done|].
      apply Forall_forall. intros child _.
      apply matchCompFilterChild_untimed_no_error.
      rewrite forallb_forall in Hcomps. apply Hcomps.
      by apply list_elem_of_In. }
  split; [done|]. cbn. rewrite Filter_range_no_error; [done|].
  apply Forall_forall. intros co _. apply Hmatch.
Qed.

(** X21: a zero Start switches the time range off: with Start the zero
    time, the End of a component filter and of a property filter has no
    effect on the result. *)
Theorem zero_Start_ignores_End (name : string) (isNotDefined : bool)
    (end_ end' : Time) (props : list PropFilter) (comps : list CompFilter)
    (txt : option TextMatch) (paramFilters : list ParamFilter)
    (comp : Component) :
  matchCompFilterChild
    (mkCompFilter name isNotDefined zeroDate end_ props comps) comp =
  matchCompFilterChild
    (mkCompFilter name isNotDefined zeroDate end' props comps) comp /\
  matchPropFilter
    (mkPropFilter name isNotDefined zeroDate end_ txt paramFilters) comp =
  matchPropFilter
    (mkPropFilter name isNotDefined zeroDate end' txt paramFilters) comp.
Proof.
  split.
  - rewrite !matchCompFilterChild_unfold. cbn.
    by rewrite (bool_decide_eq_false_2 (zeroDate <> zeroDate))
      by (intros Hne; by apply Hne).
  - unfold matchPropFilter, range_ParamFilter. cbn.
    by rewrite (bool_decide_eq_false_2 (zeroDate <> zeroDate))
      by (intros Hne; by apply Hne).
Qed.

End Extras.

(** ** The claims on the sample calendars *)

#[local] Existing Instance decimal_ICal.

(** C1 at an event that has a UID: the property exists and the filter
    {Name: "UID", IsNotDefined: true} still returns true. *)
Lemma matchPropFilter_IsNotDefined_present :
  Props_Get (Component_Props event_plain) "UID" = Some (prop "UID" "abc123") /\
  matchPropFilter uid_not_defined event_plain = (true, None).
Proof.
  split; [vm_compute; reflexivity|].
  apply (matchPropFilter_IsNotDefined_always_true uid_not_defined event_plain);
    reflexivity.
Defined.

(** C2 at an event with one VALARM child: the outer filter still matches. *)
Lemma vevent_without_valarm_on_alarm :
  alarm ∈ Component_Children event_alarm /\
  Component_Name alarm = "VALARM" /\
  matchCompFilter valarm_not_defined event_alarm = (true, None) /\
  matchCompFilterChild vevent_without_valarm event_alarm = (true, None).
Proof.
  split; [apply list_elem_of_here|]. split; [reflexivity|].
  apply (vevent_without_valarm_always_true event_alarm). reflexivity.
Defined.

(** C3 as stated fails when a child's evaluation returns an error: the first
    event of [calendar_mixed] matches the filter, the second has a malformed
    start, and matchCompFilter returns false with the error, not true. *)
Lemma matchCompFilter_error_after_match :
  event_plain ∈ Component_Children calendar_mixed /\
  matchCompFilterChild vevent_in_range event_plain = (true, None) /\
  matchCompFilter vevent_in_range calendar_mixed =
    (false, Some "ical: malformed date-time") /\
  matchCompFilter vevent_in_range calendar_mixed <> (true, None).
Proof.
  split; [apply list_elem_of_here|].
  split; [vm_compute; reflexivity|].
  split; [vm_compute; reflexivity|].
  vm_compute. discriminate.
Qed.

(** C3, amended, on calendars whose events all have well-formed dates. *)
Lemma matchCompFilter_exists_child_witness :
  matchCompFilter vevent_in_range calendar_plain = (true, None) /\
  matchCompFilter vevent_in_range event_alarm = (false, None).
Proof.
  split.
  - apply (matchCompFilter_exists_child vevent_in_range calendar_plain).
    + apply Forall_cons. split; [vm_compute; reflexivity | apply Forall_nil_2].
    + exists event_plain.
      split; [apply list_elem_of_here | vm_compute; reflexivity].
  - apply (matchCompFilter_exists_child vevent_in_range event_alarm).
    + apply Forall_cons. split; [vm_compute; reflexivity | apply Forall_nil_2].
    + intros child Hin. apply list_elem_of_singleton in Hin. subst child.
      vm_compute. discriminate.
Defined.

(** C4 on an alarm and on the event from 15 to 25, for the range (10, 20). *)
Lemma matchCompTimeRange_overlap_witness :
  matchCompTimeRange (utc 10) (utc 20) alarm = (false, None) /\
  exists matched : bool,
    matchCompTimeRange (utc 10) (utc 20) event_plain = (matched, None) /\
    (matched = true <->
     10 < 15 < 20 \/ 10 < 25 < 20 \/ (15 < 10 /\ 20 < 25)).
Proof.
  split.
  - apply (matchCompTimeRange_overlap (utc 10) (utc 20) alarm). discriminate.
  - apply (proj2 (matchCompTimeRange_overlap (utc 10) (utc 20) event_plain)
             (utc 15) (utc 25)); reflexivity.
Defined.

(** C5: the UID exists and the failing parameter filter is not looked at;
    the attendee filter, which has a TextMatch, needs its parameter filter. *)
Lemma matchPropFilter_existence_witness :
  matchParamFilter role_defined (prop "UID" "abc123") = false /\
  matchPropFilter uid_with_role event_plain = (true, None) /\
  (forall paramFilter, paramFilter ∈ PropFilter_ParamFilter attendee_chair ->
                       matchParamFilter paramFilter attendee = true).
Proof.
  split; [vm_compute; reflexivity|]. split.
  - apply (matchPropFilter_existence uid_with_role event_plain
             (prop "UID" "abc123")); [vm_compute|..]; reflexivity.
  - apply (matchPropFilter_existence attendee_chair event_meeting attendee).
    + vm_compute; reflexivity.
    + right. discriminate.
    + vm_compute; reflexivity.
Defined.

(** C6 on three objects of which the second has a malformed start. *)
Lemma Filter_fail_fast_witness :
  Match calendar_in_range (object_of calendar_plain) = (true, None) /\
  Match calendar_in_range (object_of calendar_mixed) =
    (false, Some "ical: malformed date-time") /\
  Filter (Some query_in_range)
         (Some [object_of calendar_plain; object_of calendar_mixed;
                object_of calendar_plain]) =
    (None, Some "ical: malformed date-time").
Proof.
  split; [vm_compute; reflexivity|]. split; [vm_compute; reflexivity|].
  apply (Filter_fail_fast query_in_range [object_of calendar_plain]
           [object_of calendar_plain] (object_of calendar_mixed)).
  - apply Forall_cons. split; [vm_compute; reflexivity | apply Forall_nil_2].
  - vm_compute; reflexivity.
Defined.

(** C7 on an object without calendar data. *)
Lemma Match_no_data_witness :
  Match calendar_in_range object_no_data = (false, None).
Proof.
  apply (Match_no_data calendar_in_range object_no_data). left. reflexivity.
Defined.

(** C8: a VTODO filter with IsNotDefined=true on a VCALENDAR root. *)
Lemma Match_name_mismatch_witness :
  Match vtodo_not_defined (object_of calendar_plain) = (true, None).
Proof.
  apply (Match_name_mismatch vtodo_not_defined (object_of calendar_plain)
           calendar_plain); [reflexivity | discriminate].
Defined.

(** C10 on the sample calendar: the root filter with and without a time
    range that excludes the event. *)
Lemma Match_ignores_root_range_witness :
  Match (with_range calendar_in_range (utc 100) (utc 200))
        (object_of calendar_plain) =
  Match calendar_in_range (object_of calendar_plain).
Proof.
  apply (Match_ignores_root_range
           (with_range calendar_in_range (utc 100) (utc 200))
           calendar_in_range (object_of calendar_plain)); reflexivity.
Defined.

(** The scenario of the specification's text-match example: a VEVENT with
    UID abc123 matches, one with another UID does not. *)
Example Match_uid_text :
  let query :=
    mkCompFilter "VCALENDAR" false zeroDate zeroDate []
      [mkCompFilter "VEVENT" false zeroDate zeroDate
         [mkPropFilter "UID" false zeroDate zeroDate
            (Some (mkTextMatch "abc123" false)) []] []] in
  Match query (object_of calendar_plain) = (true, None) /\
  Match query (object_of (component "VCALENDAR" [] [event_alarm])) =
    (false, None).
Proof. split; vm_compute; reflexivity. Qed.

(** A nested filter's time range, unlike the root's, does decide the
    match. *)
Example Match_nested_range :
  Match calendar_in_range (object_of calendar_plain) = (true, None) /\
  Match (mkCompFilter "VCALENDAR" false zeroDate zeroDate []
           [with_range vevent_in_range (utc 30) (utc 40)])
        (object_of calendar_plain) = (false, None).
Proof. split; vm_compute; reflexivity. Qed.

(** ** The further properties on the sample calendars *)

(** X3: the attendee has a ROLE, so the is-not-defined filter fails on it;
    a UID property has none, so the filter holds. *)
Lemma matchParamFilter_IsNotDefined_witness :
  matchParamFilter role_not_defined (prop "UID" "abc123") = true /\
  matchParamFilter role_not_defined attendee <> true.
Proof.
  split.
  - apply (matchParamFilter_IsNotDefined role_not_defined
             (prop "UID" "abc123")); reflexivity.
  - intros Hmatch.
    apply (matchParamFilter_IsNotDefined role_not_defined attendee) in Hmatch;
      [discriminate Hmatch | reflexivity].
Defined.

(** X4 on a start of 15 in the range (10, 20) and on a malformed start. *)
Lemma matchPropTimeRange_inside_witness :
  matchPropTimeRange (utc 10) (utc 20) (prop "DTSTART" "tomorrow") =
    (false, Some "ical: malformed date-time") /\
  exists matched : bool,
    matchPropTimeRange (utc 10) (utc 20) (prop "DTSTART" "15") =
      (matched, None) /\
    (matched = true <-> 10 < 15 < 20).
Proof.
  split.
  - apply (proj1 (matchPropTimeRange_inside (utc 10) (utc 20)
                    (prop "DTSTART" "tomorrow")) zeroDate). reflexivity.
  - apply (proj2 (matchPropTimeRange_inside (utc 10) (utc 20)
                    (prop "DTSTART" "15")) (utc 15)). reflexivity.
Defined.

(** X5: the event from 15 to 25 is not matched by the range (15, 25). *)
Lemma matchCompTimeRange_same_boundary_witness :
  matchCompTimeRange (utc 15) (utc 25) event_plain = (false, None).
Proof.
  apply (matchCompTimeRange_same_boundary (utc 15) (utc 25) event_plain
           (utc 15) (utc 25)); [reflexivity..|].
  left. cbn. lia.
Defined.

(** X6 on the event with a malformed start. *)
Lemma matchCompTimeRange_error_witness :
  matchCompTimeRange (utc 10) (utc 20) event_malformed =
  (false, Some "ical: malformed date-time").
Proof.
  apply (matchCompTimeRange_error (utc 10) (utc 20) event_malformed);
    [reflexivity|]. left. reflexivity.
Defined.

(** X7: with the range (10, 20) on DTSTART, a TextMatch that the value 15
    does not satisfy changes nothing. *)
Lemma matchPropFilter_range_over_text_witness :
  matchPropFilter
    (mkPropFilter "DTSTART" false (utc 10) (utc 20)
                  (Some (mkTextMatch "never" false)) []) event_plain =
  matchPropFilter dtstart_in_range event_plain.
Proof.
  apply (matchPropFilter_range_over_text "DTSTART" false (utc 10) (utc 20)
           (mkTextMatch "never" false) [] event_plain).
  discriminate.
Defined.

(** X8: the UID abc123 against the text abc123, plain and negated. *)
Lemma matchPropFilter_text_witness :
  matchPropFilter uid_is_abc event_plain = (true, None) /\
  matchPropFilter uid_is_not_abc event_plain = (false, None).
Proof.
  split.
  - apply (matchPropFilter_text uid_is_abc event_plain (prop "UID" "abc123")
             (mkTextMatch "abc123" false)); reflexivity.
  - apply (matchPropFilter_text uid_is_not_abc event_plain
             (prop "UID" "abc123") (mkTextMatch "abc123" true)); reflexivity.
Defined.

(** X9: the start 15 lies in the range (10, 20); a malformed start is an
    error. *)
Lemma matchPropFilter_time_range_witness :
  matchPropFilter dtstart_in_range event_plain = (true, None) /\
  matchPropFilter dtstart_in_range event_malformed =
    (false, Some "ical: malformed date-time").
Proof.
  split.
  - rewrite (matchPropFilter_time_range dtstart_in_range event_plain
               (prop "DTSTART" "15"));
      [vm_compute; reflexivity | reflexivity | discriminate].
  - rewrite (matchPropFilter_time_range dtstart_in_range event_malformed
               (prop "DTSTART" "tomorrow"));
      [vm_compute; reflexivity | reflexivity | discriminate].
Defined.

(** X11: the calendar with the event abc123 matches the UID query. *)
Lemma Match_true_iff_witness :
  Match calendar_uid_abc (object_of calendar_plain) = (true, None).
Proof.
  apply (Match_true_iff calendar_uid_abc (object_of calendar_plain)
           calendar_plain); [reflexivity..|].
  split.
  - apply Forall_cons. split; [vm_compute; reflexivity | apply Forall_nil_2].
  - apply Forall_nil_2.
Defined.

(** X12: the VTODO filter fails first, so the time range on the malformed
    event is never evaluated and no error comes out. *)
Lemma Match_first_failing_comp_witness :
  matchCompFilter vevent_in_range calendar_mixed =
    (false, Some "ical: malformed date-time") /\
  Match calendar_three_comps (object_of calendar_mixed) = (false, None).
Proof.
  split; [vm_compute; reflexivity|].
  apply (Match_first_failing_comp calendar_three_comps
           (object_of calendar_mixed) calendar_mixed
           [vevent_uid_abc] [vevent_in_range] vtodo_exists);
    [reflexivity..| |].
  - apply Forall_cons. split; [vm_compute; reflexivity | apply Forall_nil_2].
  - vm_compute. discriminate.
Defined.

(** X13: VERSION exists, PRODID does not: Match returns false. *)
Lemma Match_first_failing_prop_witness :
  Match calendar_two_props (object_of calendar_plain) = (false, None).
Proof.
  rewrite (Match_first_failing_prop calendar_two_props
             (object_of calendar_plain) calendar_plain
             [version_exists] [dtstart_in_range] prodid_exists).
  - vm_compute. reflexivity.
  - reflexivity.
  - reflexivity.
  - apply Forall_cons. split; [vm_compute; reflexivity | apply Forall_nil_2].
  - reflexivity.
  - apply Forall_cons. split; [vm_compute; reflexivity | apply Forall_nil_2].
  - vm_compute. discriminate.
Defined.

(** X14: the only child of the event is an alarm. *)
Lemma matchCompFilter_no_child_named_witness :
  matchCompFilter vevent_in_range event_alarm = (false, None).
Proof.
  apply (matchCompFilter_no_child_named vevent_in_range event_alarm).
  intros child Hin. apply list_elem_of_singleton in Hin. subst child.
  discriminate.
Defined.

(** X15: a to-do with a start inside the range is not matched by a VTODO
    filter with that range. *)
Lemma matchCompFilter_range_not_event_witness :
  matchCompFilterChild vtodo_in_range todo_plain = (false, None) /\
  matchCompFilter vtodo_in_range calendar_todo = (false, None).
Proof.
  split.
  - apply (matchCompFilter_range_not_event vtodo_in_range todo_plain);
      discriminate.
  - apply (matchCompFilter_range_not_event vtodo_in_range calendar_todo);
      discriminate.
Defined.

(** X16 on the filter of the alarm scenario, which has no time range. *)
Lemma matchCompFilter_untimed_no_error_witness :
  (matchCompFilterChild vevent_without_valarm event_malformed).2 = None /\
  (matchCompFilter vevent_without_valarm calendar_mixed).2 = None.
Proof.
  split.
  - apply (matchCompFilter_untimed_no_error vevent_without_valarm
             event_malformed). reflexivity.
  - apply (matchCompFilter_untimed_no_error vevent_without_valarm
             calendar_mixed). reflexivity.
Defined.

(** X17: of three objects the one with the event abc123 is kept; a nil
    input gives the empty slice. *)
Lemma Filter_keeps_matching_witness :
  Filter (Some query_uid_abc)
         (Some [object_of calendar_alarm; object_of calendar_plain;
                object_no_data]) =
    (Some [object_of calendar_plain], None) /\
  Filter (Some query_uid_abc) None = (Some [], None).
Proof.
  split.
  - rewrite (Filter_keeps_matching query_uid_abc).
    + vm_compute. reflexivity.
    + repeat (apply Forall_cons; split; [vm_compute; reflexivity|]).
      apply Forall_nil_2.
  - rewrite (Filter_keeps_matching query_uid_abc None); [reflexivity|].
    apply Forall_nil_2.
Defined.

(** X19: filtering the three objects twice. *)
Lemma Filter_idempotent_witness :
  let cos := Some [object_of calendar_alarm; object_of calendar_plain;
                   object_no_data] in
  Filter (Some query_uid_abc) (Filter (Some query_uid_abc) cos).1 =
  Filter (Some query_uid_abc) cos.
Proof.
  apply (Filter_idempotent query_uid_abc).
  repeat (apply Forall_cons; split; [vm_compute; reflexivity|]).
  apply Forall_nil_2.
Defined.

(** X20: the UID query has no time range, so it filters even the calendar
    with the malformed event without an error. *)
Lemma Filter_untimed_total_witness :
  Filter (Some query_uid_abc)
         (Some [object_of calendar_mixed; object_of calendar_alarm]) =
  (Some [object_of calendar_mixed], None).
Proof.
  destruct (Filter_untimed_total query_uid_abc
              (Some [object_of calendar_mixed; object_of calendar_alarm]))
    as [_ Hfilter]; [reflexivity..|].
  rewrite Hfilter. vm_compute. reflexivity.
Defined.

(** X22: the second event of [calendar_mixed] has a malformed start. *)
Lemma matchCompFilter_first_error_witness :
  matchCompFilter vevent_in_range calendar_mixed =
  (false, Some "ical: malformed date-time").
Proof.
  apply (matchCompFilter_first_error vevent_in_range calendar_mixed
           [event_plain] [] event_malformed); [reflexivity| |reflexivity].
  apply Forall_cons. split; [vm_compute; reflexivity | apply Forall_nil_2].
Defined.
